(** * login_example.cpp: the WMCA login example, embedded and verified

    The program of [src/login_example.cpp] talks to three things it does not
    control: the console (printf, getline), the Win32 loader (LoadLibraryA,
    GetProcAddress, FreeLibrary, Sleep) and the vendor library behind the
    seven function pointers.  The embedding keeps the C++ control flow as it
    is written and turns every such interaction into a node of a finite
    interaction tree ([Prog]).  A tree is run against an arbitrary
    deterministic environment ([run]); properties of all runs are proved with
    a weakest-precondition transformer ([wp]) that is sound for [run].
    [run] logs a call made through a function pointer after FreeLibrary like
    any other call; [run_strict] ends the run there, and is what statements
    about the exit of the process are made on. *)

From Stdlib Require Import ZArith List String Ascii Bool Lia.
Import ListNotations.
Local Open Scope string_scope.
Local Open Scope list_scope.
Local Open Scope Z_scope.

(** ** Machine data *)

(** Pointers and handles (HINSTANCE, FARPROC, HWND) are addresses; the null
    pointer is address 0.  A Win32 BOOL is an int, true when non-zero. *)
Abbreviation NULL := 0%Z (only parsing).

Definition truthy (b : Z) : bool := negb (b =? 0).

Arguments truthy b /.

(** [std::string::c_str]: what a callee sees through the [const char*], the
    bytes before the first NUL. *)
Fixpoint c_str (s : string) : string :=
  match s with
  | EmptyString => EmptyString
  | String c s' => if Ascii.eqb c zero then EmptyString else String c (c_str s')
  end.

(** [sz[0]] on a C string: the terminating NUL when the string is empty. *)
Definition first_char (sz : string) : ascii :=
  match sz with
  | EmptyString => zero
  | String c _ => c
  end.

(** [std::string::empty]. *)
Definition empty (s : string) : bool :=
  match s with
  | EmptyString => true
  | String _ _ => false
  end.

(** ** std::stoi

    [std::stoi] belongs to the C++ standard library, not to this repository;
    it is modelled from its documented behaviour: [strtol] in base 10 skips
    leading white space, reads an optional sign and the longest run of
    decimal digits, and ignores what follows; [std::invalid_argument] is
    thrown when no digit was read, [std::out_of_range] when the value does
    not fit an [int]. *)
Module Stoi.

Inductive exception := invalid_argument | out_of_range.

Inductive result :=
| Ok (value : Z)
| Throws (e : exception).

Definition INT_MIN : Z := - 2 ^ 31.
Definition INT_MAX : Z := 2 ^ 31 - 1.

Definition isspace (c : ascii) : bool :=
  let n := Z.of_nat (nat_of_ascii c) in
  (n =? 32) || ((9 <=? n) && (n <=? 13)).

Definition digit_of (c : ascii) : option Z :=
  let n := Z.of_nat (nat_of_ascii c) in
  if (48 <=? n) && (n <=? 57) then Some (n - 48) else None.

Fixpoint skip_spaces (s : string) : string :=
  match s with
  | EmptyString => EmptyString
  | String c s' => if isspace c then skip_spaces s' else s
  end.

Fixpoint read_digits (s : string) (acc : Z) : Z :=
  match s with
  | EmptyString => acc
  | String c s' =>
      match digit_of c with
      | Some d => read_digits s' (10 * acc + d)
      | None => acc
      end
  end.

Definition read_sign (s : string) : bool * string :=
  match s with
  | String c s' =>
      if Ascii.eqb c "-" then (true, s')
      else if Ascii.eqb c "+" then (false, s')
      else (false, s)
  | EmptyString => (false, s)
  end.

Definition stoi (str : string) : result :=
  let (negative, s) := read_sign (skip_spaces str) in
  match option_map (fun _ => read_digits s 0) (digit_of (first_char s)) with
  | None => Throws invalid_argument
  | Some v =>
      let n := if negative then - v else v in
      if (INT_MIN <=? n) && (n <=? INT_MAX) then Ok n else Throws out_of_range
  end.

End Stoi.

(** ** Interactions with the outside world *)

(** The typed call made through one of the seven function pointers, named
    after the pointer's typedef ([FUNC_wmcaLoad] ...), with its arguments. *)
Inductive VendorCall :=
| wmcaLoad
| wmcaFree
| wmcaSetServer (szServer : string)
| wmcaSetPort (nPort : Z)
| wmcaIsConnected
| wmcaConnect (hWnd : Z) (dwMsg : Z) (cMediaType cUserType : ascii)
              (pszID pszPassword pszSignPassword : string)
| wmcaDisconnect.

Inductive PrintfArg :=
| ArgS (s : string)
| ArgD (n : Z).

(** Calls whose result the program never reads.  The format string of a
    printf is kept as the source spells it, escape sequences included. *)
Inductive Output :=
| OutSetlocaleAll (locale : string)
| OutPrintf (format : string) (args : list PrintfArg)
| OutSleep (dwMilliseconds : Z)
| OutFreeLibrary (hLibModule : Z).

(** Calls whose result steers the program: a handle, an address or a BOOL. *)
Inductive Query :=
| QLoadLibraryA (lpLibFileName : string)
| QGetProcAddress (hModule : Z) (lpProcName : string)
| QCall (fn : Z) (c : VendorCall).

(** What an observer of a run sees, in order. *)
Inductive Event :=
| EvOut (o : Output)
| EvAns (q : Query) (answer : Z)
| EvLine (line : string).

(** A program is a finite tree: a result, or an interaction followed by the
    rest of the program, which may depend on the answer. *)
Inductive Prog (A : Type) : Type :=
| Ret (a : A)
| Do (o : Output) (k : Prog A)
| Ask (q : Query) (k : Z -> Prog A)
| Getline (k : string -> Prog A).

Arguments Ret {A} a.
Arguments Do {A} o k.
Arguments Ask {A} q k.
Arguments Getline {A} k.

Fixpoint bind {A B : Type} (m : Prog A) (f : A -> Prog B) : Prog B :=
  match m with
  | Ret a => f a
  | Do o k => Do o (bind k f)
  | Ask q k => Ask q (fun r => bind (k r) f)
  | Getline k => Getline (fun s => bind (k s) f)
  end.

Declare Scope prog_scope.
Delimit Scope prog_scope with prog.
Bind Scope prog_scope with Prog.

Notation "x <- m ;; k" := (bind m (fun x => k))
  (at level 61, m at next level, right associativity) : prog_scope.
Notation "' pat <- m ;; k" := (bind m (fun x => match x with pat => k end))
  (at level 61, pat pattern, m at next level, right associativity) : prog_scope.
Notation "m ;; k" := (bind m (fun _ => k))
  (at level 61, right associativity) : prog_scope.

Local Open Scope prog_scope.

Definition setlocale_LC_ALL (locale : string) : Prog unit :=
  Do (OutSetlocaleAll locale) (Ret tt).
Definition printf (format : string) (args : list PrintfArg) : Prog unit :=
  Do (OutPrintf format args) (Ret tt).
Definition Sleep (dwMilliseconds : Z) : Prog unit :=
  Do (OutSleep dwMilliseconds) (Ret tt).
Definition FreeLibrary (hLibModule : Z) : Prog unit :=
  Do (OutFreeLibrary hLibModule) (Ret tt).
Definition LoadLibraryA (lpLibFileName : string) : Prog Z :=
  Ask (QLoadLibraryA lpLibFileName) Ret.
Definition GetProcAddress (hModule : Z) (lpProcName : string) : Prog Z :=
  Ask (QGetProcAddress hModule lpProcName) Ret.
Definition call (fn : Z) (c : VendorCall) : Prog Z :=
  Ask (QCall fn c) Ret.
Definition getline_cin : Prog string :=
  Getline Ret.

(** ** class WMCAClient *)

Record WMCAClient := {
  m_hDll : Z;
  m_pLoad : Z;
  m_pFree : Z;
  m_pSetServer : Z;
  m_pSetPort : Z;
  m_pIsConnected : Z;
  m_pConnect : Z;
  m_pDisconnect : Z;
  m_bConnected : bool
}.

(** Assignments to one member. *)
Definition set_hDll (this : WMCAClient) (v : Z) : WMCAClient :=
  match this with
  | Build_WMCAClient _ pl pf pss psp pic pc pd b =>
      Build_WMCAClient v pl pf pss psp pic pc pd b
  end.
Definition set_pLoad (this : WMCAClient) (v : Z) : WMCAClient :=
  match this with
  | Build_WMCAClient h _ pf pss psp pic pc pd b =>
      Build_WMCAClient h v pf pss psp pic pc pd b
  end.
Definition set_pFree (this : WMCAClient) (v : Z) : WMCAClient :=
  match this with
  | Build_WMCAClient h pl _ pss psp pic pc pd b =>
      Build_WMCAClient h pl v pss psp pic pc pd b
  end.
Definition set_pSetServer (this : WMCAClient) (v : Z) : WMCAClient :=
  match this with
  | Build_WMCAClient h pl pf _ psp pic pc pd b =>
      Build_WMCAClient h pl pf v psp pic pc pd b
  end.
Definition set_pSetPort (this : WMCAClient) (v : Z) : WMCAClient :=
  match this with
  | Build_WMCAClient h pl pf pss _ pic pc pd b =>
      Build_WMCAClient h pl pf pss v pic pc pd b
  end.
Definition set_pIsConnected (this : WMCAClient) (v : Z) : WMCAClient :=
  match this with
  | Build_WMCAClient h pl pf pss psp _ pc pd b =>
      Build_WMCAClient h pl pf pss psp v pc pd b
  end.
Definition set_pConnect (this : WMCAClient) (v : Z) : WMCAClient :=
  match this with
  | Build_WMCAClient h pl pf pss psp pic _ pd b =>
      Build_WMCAClient h pl pf pss psp pic v pd b
  end.
Definition set_pDisconnect (this : WMCAClient) (v : Z) : WMCAClient :=
  match this with
  | Build_WMCAClient h pl pf pss psp pic pc _ b =>
      Build_WMCAClient h pl pf pss psp pic pc v b
  end.
Definition set_bConnected (this : WMCAClient) (v : bool) : WMCAClient :=
  match this with
  | Build_WMCAClient h pl pf pss psp pic pc pd _ =>
      Build_WMCAClient h pl pf pss psp pic pc pd v
  end.

(** Lines 50-58: the constructor. *)
Definition WMCAClient_ctor : WMCAClient :=
  {| m_hDll := NULL; m_pLoad := NULL; m_pFree := NULL; m_pSetServer := NULL;
     m_pSetPort := NULL; m_pIsConnected := NULL; m_pConnect := NULL;
     m_pDisconnect := NULL; m_bConnected := false |}.

(** Lines 65-96. *)
Definition LoadDLL (this : WMCAClient) (szDLLPath : string)
  : Prog (bool * WMCAClient) :=
  h <- LoadLibraryA szDLLPath ;;
  let this := set_hDll this h in
  if m_hDll this =? NULL then
    printf "✗ %s 로드 실패\n" [ArgS szDLLPath] ;;
    printf "  DLL이 다음 경로에 있는지 확인하세요:\n" [] ;;
    printf "  - C:\\Windows\\System32\\\n" [] ;;
    printf "  - 프로그램과 같은 디렉토리\n" [] ;;
    Ret (false, this)
  else
    printf "✓ %s 로드 성공\n" [ArgS szDLLPath] ;;
    p <- GetProcAddress (m_hDll this) "wmcaLoad" ;;
    let this := set_pLoad this p in
    p <- GetProcAddress (m_hDll this) "wmcaFree" ;;
    let this := set_pFree this p in
    p <- GetProcAddress (m_hDll this) "wmcaSetServer" ;;
    let this := set_pSetServer this p in
    p <- GetProcAddress (m_hDll this) "wmcaSetPort" ;;
    let this := set_pSetPort this p in
    p <- GetProcAddress (m_hDll this) "wmcaIsConnected" ;;
    let this := set_pIsConnected this p in
    p <- GetProcAddress (m_hDll this) "wmcaConnect" ;;
    let this := set_pConnect this p in
    p <- GetProcAddress (m_hDll this) "wmcaDisconnect" ;;
    let this := set_pDisconnect this p in
    if (m_pLoad this =? NULL) || (m_pFree this =? NULL)
       || (m_pSetServer this =? NULL) || (m_pSetPort this =? NULL)
       || (m_pIsConnected this =? NULL) || (m_pConnect this =? NULL)
       || (m_pDisconnect this =? NULL) then
      printf "✗ 함수 포인터 설정 실패\n" [] ;;
      FreeLibrary (m_hDll this) ;;
      let this := set_hDll this NULL in
      Ret (false, this)
    else
      printf "✓ 함수 포인터 설정 완료\n" [] ;;
      Ret (true, this).

(** Lines 99-112. *)
Definition Load (this : WMCAClient) : Prog (bool * WMCAClient) :=
  if m_pLoad this =? NULL then
    printf "✗ DLL이 로드되지 않았습니다.\n" [] ;;
    Ret (false, this)
  else
    r <- call (m_pLoad this) wmcaLoad ;;
    if truthy r then
      printf "✓ WMCA 모듈 로드 성공\n" [] ;;
      Ret (true, this)
    else
      printf "✗ WMCA 모듈 로드 실패\n" [] ;;
      Ret (false, this).

(** Lines 115-128. *)
Definition SetServer (this : WMCAClient) (szServer : string)
  : Prog (bool * WMCAClient) :=
  if m_pSetServer this =? NULL then
    printf "✗ SetServer 함수가 없습니다.\n" [] ;;
    Ret (false, this)
  else
    r <- call (m_pSetServer this) (wmcaSetServer szServer) ;;
    if truthy r then
      printf "✓ 서버 설정 완료: %s\n" [ArgS szServer] ;;
      Ret (true, this)
    else
      printf "✗ 서버 설정 실패: %s\n" [ArgS szServer] ;;
      Ret (false, this).

(** Lines 131-144. *)
Definition SetPort (this : WMCAClient) (nPort : Z)
  : Prog (bool * WMCAClient) :=
  if m_pSetPort this =? NULL then
    printf "✗ SetPort 함수가 없습니다.\n" [] ;;
    Ret (false, this)
  else
    r <- call (m_pSetPort this) (wmcaSetPort nPort) ;;
    if truthy r then
      printf "✓ 포트 설정 완료: %d\n" [ArgD nPort] ;;
      Ret (true, this)
    else
      printf "✗ 포트 설정 실패: %d\n" [ArgD nPort] ;;
      Ret (false, this).

(** Lines 147-152. *)
Definition IsConnected (this : WMCAClient) : Prog (bool * WMCAClient) :=
  if m_pIsConnected this =? NULL then
    Ret (false, this)
  else
    r <- call (m_pIsConnected this) wmcaIsConnected ;;
    Ret (if truthy r then true else false, this).

(** Lines 155-183.  [main] leaves [szMediaType] and [szUserType] to their
    default arguments, "0" and "1". *)
Definition Connect (this : WMCAClient) (szID szPassword szCertPW : string)
  (szMediaType szUserType : string) : Prog (bool * WMCAClient) :=
  if m_pConnect this =? NULL then
    printf "✗ Connect 함수가 없습니다.\n" [] ;;
    Ret (false, this)
  else
    printf "\n로그인 시도 중...\n" [] ;;
    r <- call (m_pConnect this)
           (wmcaConnect NULL 0 (first_char szMediaType) (first_char szUserType)
              szID szPassword szCertPW) ;;
    if truthy r then
      printf "✓ 로그인 성공: %s\n" [ArgS szID] ;;
      let this := set_bConnected this true in
      Ret (true, this)
    else
      printf "✗ 로그인 실패\n" [] ;;
      Ret (false, this).

(** Lines 186-200. *)
Definition Disconnect (this : WMCAClient) : Prog (bool * WMCAClient) :=
  if m_pDisconnect this =? NULL then
    printf "✗ Disconnect 함수가 없습니다.\n" [] ;;
    Ret (false, this)
  else
    r <- call (m_pDisconnect this) wmcaDisconnect ;;
    if truthy r then
      printf "✓ 로그아웃 성공\n" [] ;;
      let this := set_bConnected this false in
      Ret (true, this)
    else
      printf "✗ 로그아웃 실패\n" [] ;;
      Ret (false, this).

(** Lines 203-216. *)
Definition Free (this : WMCAClient) : Prog (bool * WMCAClient) :=
  if m_pFree this =? NULL then
    printf "✗ Free 함수가 없습니다.\n" [] ;;
    Ret (false, this)
  else
    r <- call (m_pFree this) wmcaFree ;;
    if truthy r then
      printf "✓ WMCA 모듈 해제 완료\n" [] ;;
      Ret (true, this)
    else
      printf "✗ WMCA 모듈 해제 실패\n" [] ;;
      Ret (false, this).

(** Lines 219-228. *)
Definition Cleanup (this : WMCAClient) : Prog WMCAClient :=
  this <- (if m_bConnected this then
             '(_, this) <- Disconnect this ;; Ret this
           else Ret this) ;;
  '(_, this) <- Free this ;;
  if negb (m_hDll this =? NULL) then
    FreeLibrary (m_hDll this) ;;
    let this := set_hDll this NULL in
    Ret this
  else Ret this.

(** Lines 60-62: the destructor. *)
Definition WMCAClient_dtor (this : WMCAClient) : Prog WMCAClient :=
  Cleanup this.

(** ** Free functions *)

(** Lines 235-250.  [szDefault] is a nullable [const char*].  [getline] on an
    exhausted stream leaves the fresh [input] empty. *)
Definition GetInput (szPrompt : string) (szDefault : option string)
  : Prog string :=
  printf "%s" [ArgS szPrompt] ;;
  match szDefault with
  | Some d => printf " (기본값: %s): " [ArgS d]
  | None => printf ": " []
  end ;;
  input <- getline_cin ;;
  match szDefault with
  | Some d => if empty input then Ret d else Ret input
  | None => Ret input
  end.

(** How [main] ends: a return value, or an exception nobody catches
    ([std::terminate]). *)
Inductive Outcome :=
| Returned (code : Z)
| Uncaught (e : Stoi.exception).

(** Lines 256-333.  The local [client] lives from line 279 to the return
    that leaves [main]; its destructor runs there, after the return value
    has been fixed. *)
Definition main : Prog Outcome :=
  setlocale_LC_ALL "" ;;
  printf "============================================================\n" [] ;;
  printf "NH증권 WMCA API 로그인 예제\n" [] ;;
  printf "============================================================\n" [] ;;
  printf "\n다음 정보를 입력하세요:\n" [] ;;
  server <- GetInput "서버 주소" (Some "127.0.0.1") ;;
  portStr <- GetInput "포트 번호" (Some "9000") ;;
  match Stoi.stoi portStr with
  | Stoi.Throws e => Ret (Uncaught e)
  | Stoi.Ok port =>
      userID <- GetInput "사용자 ID" None ;;
      password <- GetInput "비밀번호" None ;;
      certPassword <- GetInput "인증서 비밀번호" None ;;
      if empty userID || empty password || empty certPassword then
        printf "✗ 필수 정보가 입력되지 않았습니다.\n" [] ;;
        Ret (Returned 1)
      else
        let client := WMCAClient_ctor in
        '(code, client) <-
          ('(ok, client) <- LoadDLL client "wmca.dll" ;;
           if negb ok then Ret (1, client) else
           '(ok, client) <- Load client ;;
           if negb ok then Ret (1, client) else
           '(ok, client) <- SetServer client (c_str server) ;;
           if negb ok then
             '(_, client) <- Free client ;; Ret (1, client)
           else
           '(ok, client) <- SetPort client port ;;
           if negb ok then
             '(_, client) <- Free client ;; Ret (1, client)
           else
           '(ok, client) <- Connect client (c_str userID) (c_str password)
                              (c_str certPassword) "0" "1" ;;
           if negb ok then
             '(_, client) <- Free client ;; Ret (1, client)
           else
           printf "\n연결 상태 확인 중...\n" [] ;;
           '(connected, client) <- IsConnected client ;;
           (if connected then
              printf "✓ 서버와 연결되어 있습니다.\n" []
            else
              printf "✗ 서버와 연결되어 있지 않습니다.\n" []) ;;
           printf "\n5초 대기 중... (메시지 수신 대기)\n" [] ;;
           Sleep 5000 ;;
           printf "\n로그아웃 처리 중...\n" [] ;;
           '(_, client) <- Disconnect client ;;
           client <- Cleanup client ;;
           printf "\n============================================================\n" [] ;;
           printf "프로그램 종료\n" [] ;;
           printf "============================================================\n" [] ;;
           Ret (0, client)) ;;
        _ <- WMCAClient_dtor client ;;
        Ret (Returned code)
  end.

(** ** Running a program against an environment *)

(** A deterministic environment answers a query from everything that has
    happened so far.  Standard input is the list of lines still unread. *)
Definition Env := list Event -> Query -> Z.

Record World := {
  stdin : list string;
  history : list Event
}.

Definition record (e : Event) (w : World) : World :=
  {| stdin := stdin w; history := history w ++ [e] |}.

Fixpoint run (env : Env) {A : Type} (p : Prog A) (w : World) : A * World :=
  match p with
  | Ret a => (a, w)
  | Do o k => run env k (record (EvOut o) w)
  | Ask q k =>
      let r := env (history w) q in
      run env (k r) (record (EvAns q r) w)
  | Getline k =>
      let s := hd EmptyString (stdin w) in
      run env (k s) {| stdin := tl (stdin w); history := history w ++ [EvLine s] |}
  end.

Definition start (lines : list string) : World :=
  {| stdin := lines; history := [] |}.

(** A run of the whole program on the given input lines. *)
Definition outcome (env : Env) (lines : list string) : Outcome :=
  fst (run env main (start lines)).

Definition trace (env : Env) (lines : list string) : list Event :=
  history (snd (run env main (start lines))).

(** ** Weakest preconditions

    [wp p lines Q]: whatever the environment answers, [p] started on input
    [lines] ends with a result, a rest of the input and a list of events
    that satisfy [Q]. *)
Fixpoint wp {A : Type} (p : Prog A) (lines : list string)
  (Q : A -> list string -> list Event -> Prop) : Prop :=
  match p with
  | Ret a => Q a lines []
  | Do o k => wp k lines (fun a rest evs => Q a rest (EvOut o :: evs))
  | Ask q k =>
      forall r : Z, wp (k r) lines (fun a rest evs => Q a rest (EvAns q r :: evs))
  | Getline k =>
      let s := hd EmptyString lines in
      wp (k s) (tl lines) (fun a rest evs => Q a rest (EvLine s :: evs))
  end.

(** ** Observations on a trace *)

(** The native calls of a run in the order they were made, without their
    answers and without console traffic. *)
Inductive Native :=
| N_LoadLibraryA (lpLibFileName : string)
| N_GetProcAddress (lpProcName : string)
| N_call (c : VendorCall)
| N_Sleep (dwMilliseconds : Z)
| N_FreeLibrary.

Fixpoint natives (tr : list Event) : list Native :=
  match tr with
  | [] => []
  | EvAns (QLoadLibraryA path) _ :: tr' => N_LoadLibraryA path :: natives tr'
  | EvAns (QGetProcAddress _ name) _ :: tr' => N_GetProcAddress name :: natives tr'
  | EvAns (QCall _ c) _ :: tr' => N_call c :: natives tr'
  | EvOut (OutSleep ms) :: tr' => N_Sleep ms :: natives tr'
  | EvOut (OutFreeLibrary _) :: tr' => N_FreeLibrary :: natives tr'
  | _ :: tr' => natives tr'
  end.

(** Calls made through the function pointers. *)
Fixpoint vendor_calls (tr : list Event) : list VendorCall :=
  match tr with
  | [] => []
  | EvAns (QCall _ c) _ :: tr' => c :: vendor_calls tr'
  | _ :: tr' => vendor_calls tr'
  end.

(** Names handed to GetProcAddress. *)
Fixpoint resolutions (tr : list Event) : list string :=
  match tr with
  | [] => []
  | EvAns (QGetProcAddress _ name) _ :: tr' => name :: resolutions tr'
  | _ :: tr' => resolutions tr'
  end.

(** LoadLibraryA calls: the path asked for and the handle returned. *)
Fixpoint library_loads (tr : list Event) : list (string * Z) :=
  match tr with
  | [] => []
  | EvAns (QLoadLibraryA path) h :: tr' => (path, h) :: library_loads tr'
  | _ :: tr' => library_loads tr'
  end.

(** Calls made through the function pointers after the library they point
    into has been unloaded. *)
Fixpoint calls_after_unload (tr : list Event) : list VendorCall :=
  match tr with
  | [] => []
  | EvOut (OutFreeLibrary _) :: tr' => vendor_calls tr'
  | _ :: tr' => calls_after_unload tr'
  end.

(** The handle discipline, as a monitor over the trace.  The state is the
    handle currently held, if any; the monitor fails ([None]) when a library
    is loaded while another one is held, or when FreeLibrary is called on
    anything but the handle held.  A null answer of LoadLibraryA loads
    nothing. *)
Fixpoint handle_monitor (held : option Z) (tr : list Event) : option (option Z) :=
  match tr with
  | [] => Some held
  | EvAns (QLoadLibraryA _) h :: tr' =>
      if h =? NULL then handle_monitor held tr'
      else match held with
           | None => handle_monitor (Some h) tr'
           | Some _ => None
           end
  | EvOut (OutFreeLibrary h) :: tr' =>
      match held with
      | Some h' => if h =? h' then handle_monitor None tr' else None
      | None => None
      end
  | _ :: tr' => handle_monitor held tr'
  end.

(** Number of FreeLibrary calls. *)
Fixpoint unload_count (tr : list Event) : nat :=
  match tr with
  | [] => 0%nat
  | EvOut (OutFreeLibrary _) :: tr' => S (unload_count tr')
  | _ :: tr' => unload_count tr'
  end.

(** For every Sleep of a run: the native call before it, its duration, and
    the native call after it. *)
Fixpoint sleeps_from (prev : option Native) (ns : list Native)
  : list (option Native * Z * option Native) :=
  match ns with
  | [] => []
  | N_Sleep ms :: ns' => (prev, ms, hd_error ns') :: sleeps_from (Some (N_Sleep ms)) ns'
  | n :: ns' => sleeps_from (Some n) ns'
  end.

Definition sleeps (tr : list Event) : list (option Native * Z * option Native) :=
  sleeps_from None (natives tr).

(** The events a program adds to the history of the world it starts in. *)
Definition emitted (env : Env) {A : Type} (p : Prog A) (w : World) : list Event :=
  skipn (List.length (history w)) (history (snd (run env p w))).

(** ** The inputs of [main] *)

(** What [GetInput] hands back for the line it read. *)
Definition entered (szDefault : option string) (input : string) : string :=
  match szDefault with
  | Some d => if empty input then d else input
  | None => input
  end.

Definition prompt_events (szPrompt : string) (szDefault : option string)
  : list Event :=
  [EvOut (OutPrintf "%s" [ArgS szPrompt]);
   EvOut (match szDefault with
          | Some d => OutPrintf " (기본값: %s): " [ArgS d]
          | None => OutPrintf ": " []
          end)].

(** The five fields [main] asks for, with their default values. *)
Definition fields : list (string * option string) :=
  [("서버 주소", Some "127.0.0.1");
   ("포트 번호", Some "9000");
   ("사용자 ID", None);
   ("비밀번호", None);
   ("인증서 비밀번호", None)].

(** The fields a run prompted for: a printf of the prompt through "%s",
    followed by the printf that shows the default value or the bare colon. *)
Fixpoint prompted (tr : list Event) : list (string * option string) :=
  match tr with
  | [] => []
  | EvOut (OutPrintf "%s" [ArgS szPrompt]) :: tr' =>
      match tr' with
      | EvOut (OutPrintf " (기본값: %s): " [ArgS d]) :: _ =>
          (szPrompt, Some d) :: prompted tr'
      | EvOut (OutPrintf ": " []) :: _ => (szPrompt, None) :: prompted tr'
      | _ => prompted tr'
      end
  | _ :: tr' => prompted tr'
  end.

(** The values [main] works with, as functions of the lines typed; a line
    past the end of the input reads as empty. *)
Definition server_of (lines : list string) : string :=
  entered (Some "127.0.0.1") (nth 0 lines EmptyString).
Definition portStr_of (lines : list string) : string :=
  entered (Some "9000") (nth 1 lines EmptyString).
Definition userID_of (lines : list string) : string := nth 2 lines EmptyString.
Definition password_of (lines : list string) : string := nth 3 lines EmptyString.
Definition certPassword_of (lines : list string) : string := nth 4 lines EmptyString.

(** The test of line 273. *)
Definition required_missing (lines : list string) : bool :=
  empty (userID_of lines) || empty (password_of lines)
  || empty (certPassword_of lines).

(** ** Steps whose failure [main] acts on

    A null handle from LoadLibraryA, a null address from GetProcAddress, or
    FALSE from wmcaLoad, wmcaSetServer, wmcaSetPort or wmcaConnect. *)
Definition decisive_failure (e : Event) : bool :=
  match e with
  | EvAns (QLoadLibraryA _) r => r =? 0
  | EvAns (QGetProcAddress _ _) r => r =? 0
  | EvAns (QCall _ wmcaLoad) r => r =? 0
  | EvAns (QCall _ (wmcaSetServer _)) r => r =? 0
  | EvAns (QCall _ (wmcaSetPort _)) r => r =? 0
  | EvAns (QCall _ (wmcaConnect _ _ _ _ _ _ _)) r => r =? 0
  | _ => false
  end.

(** ** Calling the methods of a client in any order *)

Inductive Method :=
| M_Load
| M_SetServer (szServer : string)
| M_SetPort (nPort : Z)
| M_IsConnected
| M_Connect (szID szPassword szCertPW szMediaType szUserType : string)
| M_Disconnect
| M_Free
| M_Cleanup.

Definition invoke (m : Method) (this : WMCAClient) : Prog WMCAClient :=
  match m with
  | M_Load => '(_, this) <- Load this ;; Ret this
  | M_SetServer szServer => '(_, this) <- SetServer this szServer ;; Ret this
  | M_SetPort nPort => '(_, this) <- SetPort this nPort ;; Ret this
  | M_IsConnected => '(_, this) <- IsConnected this ;; Ret this
  | M_Connect szID szPassword szCertPW szMediaType szUserType =>
      '(_, this) <- Connect this szID szPassword szCertPW szMediaType szUserType ;;
      Ret this
  | M_Disconnect => '(_, this) <- Disconnect this ;; Ret this
  | M_Free => '(_, this) <- Free this ;; Ret this
  | M_Cleanup => Cleanup this
  end.

Fixpoint invoke_all (ms : list Method) (this : WMCAClient) : Prog WMCAClient :=
  match ms with
  | [] => Ret this
  | m :: ms' => this <- invoke m this ;; invoke_all ms' this
  end.

(** The seven wrappers and the test that opens each of them
    ([if (!m_pLoad)] ...). *)
Inductive Wrapper :=
| W_Load | W_SetServer | W_SetPort | W_IsConnected | W_Connect
| W_Disconnect | W_Free.

Definition slot (wr : Wrapper) (this : WMCAClient) : Z :=
  match wr with
  | W_Load => m_pLoad this
  | W_SetServer => m_pSetServer this
  | W_SetPort => m_pSetPort this
  | W_IsConnected => m_pIsConnected this
  | W_Connect => m_pConnect this
  | W_Disconnect => m_pDisconnect this
  | W_Free => m_pFree this
  end.

Definition null_branch (wr : Wrapper) (this : WMCAClient) : bool :=
  slot wr this =? NULL.

(** Did the events of a call include a successful wmcaConnect, a successful
    wmcaDisconnect, or any entry into [Disconnect] (its vendor call, or the
    message of its null branch)? *)
Definition connect_succeeded (e : Event) : bool :=
  match e with
  | EvAns (QCall _ (wmcaConnect _ _ _ _ _ _ _)) r => truthy r
  | _ => false
  end.

Definition disconnect_succeeded (e : Event) : bool :=
  match e with
  | EvAns (QCall _ wmcaDisconnect) r => truthy r
  | _ => false
  end.

Definition disconnect_entered (e : Event) : bool :=
  match e with
  | EvAns (QCall _ wmcaDisconnect) _ => true
  | EvOut (OutPrintf "✗ Disconnect 함수가 없습니다.\n" []) => true
  | _ => false
  end.

(** Vendor calls that returned FALSE. *)
Fixpoint failed_calls (tr : list Event) : list VendorCall :=
  match tr with
  | [] => []
  | EvAns (QCall _ c) r :: tr' =>
      if truthy r then failed_calls tr' else c :: failed_calls tr'
  | _ :: tr' => failed_calls tr'
  end.

(** The seven entry points, in the order of lines 78-84. *)
Definition entry_points : list string :=
  ["wmcaLoad"; "wmcaFree"; "wmcaSetServer"; "wmcaSetPort"; "wmcaIsConnected";
   "wmcaConnect"; "wmcaDisconnect"].

(** ** Sample environments and inputs *)

(** An installation described by the handle LoadLibraryA returns, the
    address of each export and what each vendor call returns. *)
Definition installation (handle : Z) (exports : string -> Z)
  (returns : VendorCall -> Z) : Env :=
  fun _ q =>
    match q with
    | QLoadLibraryA _ => handle
    | QGetProcAddress _ name => exports name
    | QCall _ c => returns c
    end.

Definition all_exports (name : string) : Z :=
  if String.eqb name "wmcaLoad" then 4198400
  else if String.eqb name "wmcaFree" then 4198416
  else if String.eqb name "wmcaSetServer" then 4198432
  else if String.eqb name "wmcaSetPort" then 4198448
  else if String.eqb name "wmcaIsConnected" then 4198464
  else if String.eqb name "wmcaConnect" then 4198480
  else if String.eqb name "wmcaDisconnect" then 4198496
  else NULL.

Definition exports_without (missing : string) (name : string) : Z :=
  if String.eqb name missing then NULL else all_exports name.

(** Everything is there and every call succeeds. *)
Definition env_ok : Env := installation 4194304 all_exports (fun _ => 1).

(** wmca.dll is not installed. *)
Definition env_absent : Env := installation NULL all_exports (fun _ => 1).

(** wmca.dll lacks the export wmcaDisconnect. *)
Definition env_no_wmcaDisconnect : Env :=
  installation 4194304 (exports_without "wmcaDisconnect") (fun _ => 1).


(** Defaults for server and port, then the three credentials. *)
Definition lines_ok : list string := [""; ""; "user"; "secret"; "cert"].

(** A port that is not a number. *)
Definition lines_bad_port : list string := [""; "abc"; "user"; "secret"; "cert"].

(** ** Further observations on a trace *)

(** The export a call goes to, as [LoadDLL] pairs pointers and names. *)
Definition entry_name (c : VendorCall) : string :=
  match c with
  | wmcaLoad => "wmcaLoad"
  | wmcaFree => "wmcaFree"
  | wmcaSetServer _ => "wmcaSetServer"
  | wmcaSetPort _ => "wmcaSetPort"
  | wmcaIsConnected => "wmcaIsConnected"
  | wmcaConnect _ _ _ _ _ _ _ => "wmcaConnect"
  | wmcaDisconnect => "wmcaDisconnect"
  end.

(** A scan of the trace that remembers what GetProcAddress answered for
    each name, and accepts a call through a pointer only when the pointer is
    non-null and is an address answered for the name of that call. *)
Fixpoint resolved_before (seen : list (string * Z)) (tr : list Event) : bool :=
  match tr with
  | [] => true
  | EvAns (QGetProcAddress _ name) p :: tr' =>
      resolved_before ((name, p) :: seen) tr'
  | EvAns (QCall fn c) _ :: tr' =>
      negb (fn =? NULL)
      && existsb (fun np => String.eqb (fst np) (entry_name c) && (snd np =? fn))
           seen
      && resolved_before seen tr'
  | _ :: tr' => resolved_before seen tr'
  end.

(** GetProcAddress calls: the module handle and the name asked for. *)
Fixpoint proc_queries (tr : list Event) : list (Z * string) :=
  match tr with
  | [] => []
  | EvAns (QGetProcAddress h name) _ :: tr' => (h, name) :: proc_queries tr'
  | _ :: tr' => proc_queries tr'
  end.

(** The arguments a vendor call must carry in a run on the given input. *)
Definition expected_call (lines : list string) (c : VendorCall) : Prop :=
  match c with
  | wmcaSetServer szServer => szServer = c_str (server_of lines)
  | wmcaSetPort nPort => Stoi.stoi (portStr_of lines) = Stoi.Ok nPort
  | wmcaConnect hWnd dwMsg cMediaType cUserType pszID pszPassword pszSignPassword =>
      hWnd = NULL /\ dwMsg = 0 /\
      cMediaType = "0"%char /\ cUserType = "1"%char /\
      pszID = c_str (userID_of lines) /\
      pszPassword = c_str (password_of lines) /\
      pszSignPassword = c_str (certPassword_of lines)
  | _ => True
  end.

(** The port text converts and no required field is empty. *)
Definition inputs_accepted (lines : list string) : bool :=
  match Stoi.stoi (portStr_of lines) with
  | Stoi.Ok _ => negb (required_missing lines)
  | Stoi.Throws _ => false
  end.

(** The forward part of a session, in the order [main] goes through it. *)
Definition protocol (lines : list string) (port : Z) : list Native :=
  N_LoadLibraryA "wmca.dll" :: map N_GetProcAddress entry_points
  ++ [N_call wmcaLoad;
      N_call (wmcaSetServer (c_str (server_of lines)));
      N_call (wmcaSetPort port);
      N_call (wmcaConnect NULL 0 "0" "1" (c_str (userID_of lines))
                (c_str (password_of lines)) (c_str (certPassword_of lines)));
      N_call wmcaIsConnected;
      N_Sleep 5000;
      N_call wmcaDisconnect].

(** What the vendor answered to the calls selected by [p], in order. *)
Fixpoint answers_to (p : VendorCall -> bool) (tr : list Event) : list Z :=
  match tr with
  | [] => []
  | EvAns (QCall _ c) r :: tr' =>
      if p c then r :: answers_to p tr' else answers_to p tr'
  | _ :: tr' => answers_to p tr'
  end.

Definition is_wmcaLoad (c : VendorCall) : bool :=
  match c with wmcaLoad => true | _ => false end.
Definition is_wmcaFree (c : VendorCall) : bool :=
  match c with wmcaFree => true | _ => false end.
Definition is_wmcaDisconnect (c : VendorCall) : bool :=
  match c with wmcaDisconnect => true | _ => false end.

(** How many answers are FALSE before the first one that is not. *)
Fixpoint leading_failures (answers : list Z) : nat :=
  match answers with
  | [] => 0%nat
  | r :: answers' => if r =? 0 then S (leading_failures answers') else 0%nat
  end.

(** GetProcAddress answered NULL. *)
Definition entry_point_missing (e : Event) : bool :=
  match e with
  | EvAns (QGetProcAddress _ _) r => r =? NULL
  | _ => false
  end.

(** A printf whose format starts with the cross the program uses for its
    error lines. *)
Definition error_line (e : Event) : bool :=
  match e with
  | EvOut (OutPrintf format _) => String.prefix "✗" format
  | _ => false
  end.

(** The strings handed to printf through "%s", in order. *)
Fixpoint printed_strings (tr : list Event) : list string :=
  match tr with
  | [] => []
  | EvOut (OutPrintf _ args) :: tr' =>
      flat_map (fun a => match a with ArgS s => [s] | ArgD _ => [] end) args
      ++ printed_strings tr'
  | _ :: tr' => printed_strings tr'
  end.

(** The strings [main] can print: the prompts, the two defaults, the
    library path, the server and the user ID. *)
Definition printable (lines : list string) : list string :=
  map fst fields
  ++ ["127.0.0.1"; "9000"; "wmca.dll";
      c_str (server_of lines); c_str (userID_of lines)].

Definition has_Cleanup (ms : list Method) : bool :=
  existsb (fun m => match m with M_Cleanup => true | _ => false end) ms.

(** The library is complete, but wmcaLoad reports FALSE. *)
Definition env_wmcaLoad_fails : Env :=
  installation 4194304 all_exports
    (fun c => match c with wmcaLoad => 0 | _ => 1 end).

(** ** Runs in which a call into an unloaded library does not return

    [run] logs every call and lets the environment answer it, also a call
    made through a function pointer after FreeLibrary.  In the real process
    such a call goes into code that is no longer mapped, and nothing can be
    said about what follows it.  [run_strict] is [run] with that one
    difference: it keeps track of whether a library is loaded and ends the
    run at the first call through a function pointer made while none is. *)

(** Whether a library is loaded after an event, given whether one was
    loaded before it. *)
Definition loaded_after (held : bool) (e : Event) : bool :=
  match e with
  | EvAns (QLoadLibraryA _) h => if h =? NULL then held else true
  | EvOut (OutFreeLibrary _) => false
  | _ => held
  end.

(** The call a query makes into a library that is not loaded, if it is one. *)
Definition stale (held : bool) (q : Query) : option VendorCall :=
  if held then None
  else match q with
       | QCall _ c => Some c
       | _ => None
       end.

Inductive Ending (A : Type) : Type :=
| Finished (a : A)
| CallsUnloaded (c : VendorCall).

Arguments Finished {A} a.
Arguments CallsUnloaded {A} c.

Fixpoint run_strict (env : Env) (held : bool) {A : Type} (p : Prog A)
  (w : World) : Ending A * World :=
  match p with
  | Ret a => (Finished a, w)
  | Do o k => run_strict env (loaded_after held (EvOut o)) k (record (EvOut o) w)
  | Ask q k =>
      match stale held q with
      | Some c => (CallsUnloaded c, w)
      | None =>
          let r := env (history w) q in
          run_strict env (loaded_after held (EvAns q r)) (k r)
            (record (EvAns q r) w)
      end
  | Getline k =>
      let s := hd EmptyString (stdin w) in
      run_strict env held (k s)
        {| stdin := tl (stdin w); history := history w ++ [EvLine s] |}
  end.

(** How the process ends, and what happened up to there. *)
Definition verdict (env : Env) (lines : list string) : Ending Outcome :=
  fst (run_strict env false main (start lines)).

Definition strict_trace (env : Env) (lines : list string) : list Event :=
  history (snd (run_strict env false main (start lines))).

(** The same cut, made on a trace of [run]. *)
Fixpoint first_stale (held : bool) (tr : list Event) : option VendorCall :=
  match tr with
  | [] => None
  | EvAns q r :: tr' =>
      match stale held q with
      | Some c => Some c
      | None => first_stale (loaded_after held (EvAns q r)) tr'
      end
  | e :: tr' => first_stale (loaded_after held e) tr'
  end.

Fixpoint defined_prefix (held : bool) (tr : list Event) : list Event :=
  match tr with
  | [] => []
  | EvAns q r :: tr' =>
      match stale held q with
      | Some _ => []
      | None => EvAns q r :: defined_prefix (loaded_after held (EvAns q r)) tr'
      end
  | e :: tr' => e :: defined_prefix (loaded_after held e) tr'
  end.



(** How far into [protocol] a run gets: not at all when the inputs are
    turned down, and otherwise up to the first step that fails. *)
Definition progress (lines : list string) (tr : list Event) : nat :=
  if negb (inputs_accepted lines) then 0%nat
  else if existsb (fun l => snd l =? NULL) (library_loads tr) then 1%nat
  else if existsb entry_point_missing tr then 8%nat
  else if existsb (fun r => r =? 0) (answers_to is_wmcaLoad tr) then 9%nat
  else if existsb (fun r => r =? 0)
            (answers_to (fun c => match c with wmcaSetServer _ => true | _ => false end) tr)
       then 10%nat
  else if existsb (fun r => r =? 0)
            (answers_to (fun c => match c with wmcaSetPort _ => true | _ => false end) tr)
       then 11%nat
  else if existsb (fun r => r =? 0)
            (answers_to (fun c => match c with wmcaConnect _ _ _ _ _ _ _ => true | _ => false end) tr)
       then 12%nat
  else 15%nat.

(** The release calls that may follow [n] steps of [protocol]: a logout
    only after the whole of it. *)
Definition release_after (n : nat) (c : Native) : bool :=
  match c with
  | N_call wmcaDisconnect => (15 <=? n)%nat
  | N_call wmcaFree | N_FreeLibrary => true
  | _ => false
  end.

(** * Proofs *)

Section Soundness.

Variable env : Env.

Lemma wp_sound {A : Type} (p : Prog A) :
  forall (w : World) (Q : A -> list string -> list Event -> Prop),
    wp p (stdin w) Q ->
    exists evs,
      history (snd (run env p w)) = history w ++ evs /\
      Q (fst (run env p w)) (stdin (snd (run env p w))) evs.
Proof.
  induction p as [a | o k IH | q k IH | k IH]; intros w Q H; simpl in *.
  - exists []. now rewrite app_nil_r.
  - destruct (IH (record (EvOut o) w) _ H) as (evs & Hh & HQ).
    exists (EvOut o :: evs). split; [| exact HQ].
    rewrite Hh. simpl. now rewrite <- app_assoc.
  - destruct (IH (env (history w) q)
                (record (EvAns q (env (history w) q)) w) _ (H _))
      as (evs & Hh & HQ).
    eexists. split; [| exact HQ].
    rewrite Hh. simpl. now rewrite <- app_assoc.
  - destruct (IH (hd EmptyString (stdin w))
                {| stdin := tl (stdin w);
                   history := history w ++ [EvLine (hd EmptyString (stdin w))] |}
                _ H) as (evs & Hh & HQ).
    eexists. split; [| exact HQ].
    rewrite Hh. simpl. now rewrite <- app_assoc.
Qed.

Lemma wp_emitted {A : Type} (p : Prog A) (w : World)
  (Q : A -> list string -> list Event -> Prop) :
  wp p (stdin w) Q ->
  Q (fst (run env p w)) (stdin (snd (run env p w))) (emitted env p w).
Proof.
  intros H. destruct (wp_sound p w Q H) as (evs & Hh & HQ).
  unfold emitted. rewrite Hh, skipn_app, skipn_all, Nat.sub_diag. exact HQ.
Qed.

Lemma run_bind {A B : Type} (m : Prog A) (f : A -> Prog B) :
  forall w : World,
    run env (bind m f) w = run env (f (fst (run env m w))) (snd (run env m w)).
Proof.
  induction m as [a | o k IH | q k IH | k IH]; intros w; simpl; auto.
Qed.

Lemma main_sound (lines : list string) (Q : Outcome -> list Event -> Prop) :
  wp main lines (fun out _ evs => Q out evs) ->
  Q (outcome env lines) (trace env lines).
Proof.
  intros H. destruct (wp_sound main (start lines) _ H) as (evs & Hh & HQ).
  unfold outcome, trace. rewrite Hh. exact HQ.
Qed.

End Soundness.

(** ** Rules of the program logic *)

Lemma wp_mono {A : Type} (p : Prog A) :
  forall lines (Q Q' : A -> list string -> list Event -> Prop),
    (forall a rest evs, Q a rest evs -> Q' a rest evs) ->
    wp p lines Q -> wp p lines Q'.
Proof.
  induction p as [a | o k IH | q k IH | k IH]; intros lines Q Q' HQ H; simpl in *.
  - now apply HQ.
  - eapply IH; [| exact H]. intros; now apply HQ.
  - intros r. eapply IH; [| exact (H r)]. intros; now apply HQ.
  - eapply IH; [| exact H]. intros; now apply HQ.
Qed.

Lemma wp_bind {A B : Type} (m : Prog A) (f : A -> Prog B) :
  forall lines (Q : B -> list string -> list Event -> Prop),
    wp m lines (fun a rest evs =>
      wp (f a) rest (fun b rest' evs' => Q b rest' (evs ++ evs'))) ->
    wp (bind m f) lines Q.
Proof.
  induction m as [a | o k IH | q k IH | k IH]; intros lines Q H; simpl in *.
  - exact H.
  - apply IH. exact H.
  - intros r. apply IH. exact (H r).
  - apply IH. exact H.
Qed.

Lemma wp_GetInput (szPrompt : string) (szDefault : option string)
  (lines : list string) (Q : string -> list string -> list Event -> Prop) :
  Q (entered szDefault (hd EmptyString lines)) (tl lines)
    (prompt_events szPrompt szDefault ++ [EvLine (hd EmptyString lines)]) ->
  wp (GetInput szPrompt szDefault) lines Q.
Proof.
  unfold GetInput, entered, prompt_events.
  destruct szDefault as [d |]; simpl; [| trivial].
  destruct (empty (hd EmptyString lines)); trivial.
Qed.

Arguments GetInput : simpl never.

(** Symbolic execution: take the next answer of the environment, and split
    on whether an answer is zero once a test on it is in the way. *)
Ltac wp_ask :=
  lazymatch goal with
  | |- forall r : Z, _ => let r := fresh "r" in intro r
  end.

Ltac wp_split :=
  match goal with
  | |- context [?r =? 0] =>
      is_var r;
      let E := fresh "E" in
      destruct (r =? 0) eqn:E; [apply Z.eqb_eq in E; subst r |]
  end.

Ltac wp_known :=
  match goal with
  | E : (?r =? 0) = false |- context [?r =? 0] => rewrite E
  end.

Ltac wp_exec :=
  unfold WMCAClient_dtor, Cleanup, LoadDLL, Load, SetServer, SetPort,
    IsConnected, Connect, Disconnect, Free, truthy;
  cbn; repeat (first [wp_known | wp_split | wp_ask]; cbn).

(** The lines [main] reads are the first five of the input. *)
Lemma inputs_of_lines (lines : list string) :
  entered (Some "127.0.0.1") (hd EmptyString lines) = server_of lines /\
  entered (Some "9000") (hd EmptyString (tl lines)) = portStr_of lines /\
  entered None (hd EmptyString (tl (tl lines))) = userID_of lines /\
  entered None (hd EmptyString (tl (tl (tl lines)))) = password_of lines /\
  entered None (hd EmptyString (tl (tl (tl (tl lines))))) = certPassword_of lines.
Proof.
  destruct lines as [| l0 [| l1 [| l2 [| l3 [| l4 rest]]]]]; repeat split.
Qed.

Arguments entered : simpl never.

(** The input phase of [main], up to the construction of [client]: three
    goals are left, for a missing required field, for the session with the
    vendor library, and for a port that [stoi] rejects. *)
Ltac wp_inputs lines :=
  unfold main; cbn;
  apply wp_bind, wp_GetInput; apply wp_bind, wp_GetInput;
  destruct (inputs_of_lines lines) as (-> & -> & Huid & Hpw & Hcert);
  let port := fresh "port" in
  let e := fresh "e" in
  let Eport := fresh "Eport" in
  destruct (Stoi.stoi (portStr_of lines)) as [port | e] eqn:Eport;
  [ do 3 (apply wp_bind, wp_GetInput);
    rewrite Huid, Hpw, Hcert; clear Huid Hpw Hcert;
    change (empty (userID_of lines) || empty (password_of lines)
            || empty (certPassword_of lines)) with (required_missing lines);
    let Emissing := fresh "Emissing" in
    destruct (required_missing lines) eqn:Emissing
  | clear Huid Hpw Hcert ].

(** Reduce a statement about [outcome] and [trace] to a weakest
    precondition of [main]. *)
Ltac by_wp env lines :=
  pattern (outcome env lines), (trace env lines); apply main_sound.

(** Membership in an explicit list. *)
Ltac in_list := repeat first [left; reflexivity | right].

(** ** std::stoi on sample texts *)

Example stoi_default_port : Stoi.stoi "9000" = Stoi.Ok 9000.
Proof. reflexivity. Qed.

Example stoi_ignores_what_follows : Stoi.stoi "  80x" = Stoi.Ok 80.
Proof. reflexivity. Qed.

Example stoi_least_int : Stoi.stoi "-2147483648" = Stoi.Ok (-2147483648).
Proof. reflexivity. Qed.

Example stoi_no_digit : Stoi.stoi "abc" = Stoi.Throws Stoi.invalid_argument.
Proof. reflexivity. Qed.

Example stoi_sign_only : Stoi.stoi "-" = Stoi.Throws Stoi.invalid_argument.
Proof. reflexivity. Qed.

Example stoi_too_large : Stoi.stoi "2147483648" = Stoi.Throws Stoi.out_of_range.
Proof. reflexivity. Qed.

(** ** Runs of [main] *)

Lemma run_abnormal (env : Env) (lines : list string) (e : Stoi.exception) :
  Stoi.stoi (portStr_of lines) = Stoi.Throws e ->
  outcome env lines = Uncaught e /\ natives (trace env lines) = [].
Proof.
  intros H.
  apply (main_sound env lines
           (fun out tr => out = Uncaught e /\ natives tr = [])).
  wp_inputs lines; try discriminate.
  cbn. split; congruence.
Qed.

(** Every successful run calls wmcaFree once more after FreeLibrary: the
    destructor runs [Cleanup] a second time, and [Free] is not guarded by
    the handle. *)
Lemma success_calls_after_unload (env : Env) (lines : list string) :
  outcome env lines = Returned 0 ->
  In wmcaFree (calls_after_unload (trace env lines)).
Proof.
  apply (main_sound env lines
           (fun out tr => out = Returned 0 -> In wmcaFree (calls_after_unload tr))).
  wp_inputs lines; [cbn; discriminate | | cbn; discriminate].
  wp_exec; intros H; try discriminate H; cbn; auto.
Qed.

(** The native calls of a run in which nothing fails, for any input. *)
Lemma success_path_natives (env : Env) (lines : list string) (port : Z) :
  Stoi.stoi (portStr_of lines) = Stoi.Ok port ->
  outcome env lines = Returned 0 ->
  failed_calls (trace env lines) = [] ->
  natives (trace env lines)
    = N_LoadLibraryA "wmca.dll" :: map N_GetProcAddress entry_points
      ++ [N_call wmcaLoad;
          N_call (wmcaSetServer (c_str (server_of lines)));
          N_call (wmcaSetPort port);
          N_call (wmcaConnect NULL 0 "0" "1" (c_str (userID_of lines))
                    (c_str (password_of lines)) (c_str (certPassword_of lines)));
          N_call wmcaIsConnected;
          N_Sleep 5000;
          N_call wmcaDisconnect;
          N_call wmcaFree;
          N_FreeLibrary;
          N_call wmcaFree].
Proof.
  intros Hport. by_wp env lines.
  wp_inputs lines; [cbn; discriminate | | discriminate].
  injection Hport as <-.
  wp_exec; intros H1; try discriminate H1; intros H2; try discriminate H2;
    reflexivity.
Qed.

(** The seven entry points are resolved in the order of lines 78-84, or
    not at all. *)
Lemma resolutions_all_or_none (env : Env) (lines : list string) :
  resolutions (trace env lines) =
    if existsb (fun l => negb (snd l =? NULL)) (library_loads (trace env lines))
    then entry_points else [].
Proof.
  apply (main_sound env lines
           (fun _ tr =>
              resolutions tr =
                if existsb (fun l => negb (snd l =? NULL)) (library_loads tr)
                then entry_points else [])).
  wp_inputs lines; [reflexivity | | reflexivity].
  wp_exec; reflexivity.
Qed.

(** A missing entry point makes [main] return 1 with the library unloaded
    right after the resolution; the only vendor call such a run can still
    make is the destructor's wmcaFree. *)
Lemma missing_entry_point (env : Env) (lines : list string) :
  existsb (fun e => match e with
                    | EvAns (QGetProcAddress _ _) r => r =? NULL
                    | _ => false
                    end) (trace env lines) = true ->
  outcome env lines = Returned 1 /\
  natives (trace env lines)
    = N_LoadLibraryA "wmca.dll" :: map N_GetProcAddress entry_points
        ++ N_FreeLibrary :: map N_call (vendor_calls (trace env lines)) /\
  (vendor_calls (trace env lines) = [] \/
   vendor_calls (trace env lines) = [wmcaFree]).
Proof.
  apply (main_sound env lines
           (fun out tr =>
              existsb (fun e => match e with
                                | EvAns (QGetProcAddress _ _) r => r =? NULL
                                | _ => false
                                end) tr = true ->
              out = Returned 1 /\
              natives tr
                = N_LoadLibraryA "wmca.dll" :: map N_GetProcAddress entry_points
                    ++ N_FreeLibrary :: map N_call (vendor_calls tr) /\
              (vendor_calls tr = [] \/ vendor_calls tr = [wmcaFree]))).
  wp_inputs lines; [cbn; discriminate | | cbn; discriminate].
  wp_exec; intros H; try discriminate H; cbn; auto.
Qed.

(** ** [run_strict] is [run], cut at the first call into an unloaded library *)

Lemma wp_trivial {A : Type} (p : Prog A) :
  forall lines, wp p lines (fun _ _ _ => True).
Proof.
  induction p as [a | o k IH | q k IH | k IH]; intros lines; simpl; auto.
Qed.

Lemma run_history (env : Env) {A : Type} (p : Prog A) (w : World) :
  history (snd (run env p w)) = history w ++ emitted env p w.
Proof.
  destruct (wp_sound env p w _ (wp_trivial p (stdin w))) as (evs & Hh & _).
  unfold emitted. now rewrite Hh, skipn_app, skipn_all, Nat.sub_diag.
Qed.

Lemma emitted_step (env : Env) {A : Type} (p : Prog A) (w w' : World) (e : Event) :
  history w' = history w ++ [e] ->
  skipn (List.length (history w)) (history (snd (run env p w')))
  = e :: emitted env p w'.
Proof.
  intros H. rewrite run_history, H, <- app_assoc, skipn_app, skipn_all, Nat.sub_diag.
  reflexivity.
Qed.

Lemma run_strict_run (env : Env) {A : Type} (p : Prog A) :
  forall (held : bool) (w : World),
    fst (run_strict env held p w)
    = match first_stale held (emitted env p w) with
      | Some c => CallsUnloaded c
      | None => Finished (fst (run env p w))
      end /\
    history (snd (run_strict env held p w))
    = history w ++ defined_prefix held (emitted env p w).
Proof.
  induction p as [a | o k IH | q k IH | k IH]; intros held w.
  - unfold emitted. simpl. rewrite skipn_all, app_nil_r. split; reflexivity.
  - unfold emitted at 1 2. cbn [run run_strict].
    rewrite (emitted_step env k w (record (EvOut o) w) (EvOut o) eq_refl).
    cbn [first_stale defined_prefix].
    destruct (IH (loaded_after held (EvOut o)) (record (EvOut o) w)) as [H1 H2].
    rewrite H1, H2. cbn [record history]. rewrite <- app_assoc. split; reflexivity.
  - unfold emitted at 1 2. cbn [run run_strict].
    rewrite (emitted_step env (k (env (history w) q)) w
               (record (EvAns q (env (history w) q)) w)
               (EvAns q (env (history w) q)) eq_refl).
    cbn [first_stale defined_prefix]. destruct (stale held q) as [c |].
    + cbn [fst snd]. rewrite app_nil_r. split; reflexivity.
    + destruct (IH (env (history w) q)
                  (loaded_after held (EvAns q (env (history w) q)))
                  (record (EvAns q (env (history w) q)) w)) as [H1 H2].
      rewrite H1, H2. cbn [record history]. rewrite <- app_assoc.
      split; reflexivity.
  - unfold emitted at 1 2. cbn [run run_strict].
    rewrite (emitted_step env (k (hd EmptyString (stdin w))) w
               {| stdin := tl (stdin w);
                  history := history w ++ [EvLine (hd EmptyString (stdin w))] |}
               (EvLine (hd EmptyString (stdin w))) eq_refl).
    cbn [first_stale defined_prefix loaded_after].
    destruct (IH (hd EmptyString (stdin w)) held
                {| stdin := tl (stdin w);
                   history := history w ++ [EvLine (hd EmptyString (stdin w))] |})
      as [H1 H2].
    rewrite H1, H2. cbn [history]. rewrite <- app_assoc. split; reflexivity.
Qed.

Lemma verdict_of_run (env : Env) (lines : list string) :
  verdict env lines
  = match first_stale false (trace env lines) with
    | Some c => CallsUnloaded c
    | None => Finished (outcome env lines)
    end.
Proof.
  unfold verdict. now rewrite (proj1 (run_strict_run env main false (start lines))).
Qed.

Lemma strict_trace_of_run (env : Env) (lines : list string) :
  strict_trace env lines = defined_prefix false (trace env lines).
Proof.
  unfold strict_trace. now rewrite (proj2 (run_strict_run env main false (start lines))).
Qed.

(** Reduce a statement about [verdict] and [strict_trace] to a weakest
    precondition of [main]. *)
Ltac by_wp_strict env lines :=
  rewrite ?verdict_of_run, ?strict_trace_of_run; by_wp env lines.

(** ** Properties of whole runs *)




(** C2 fails on the code: on the path where everything succeeds, the
    native calls are the ones the specification lists, in that order,
    followed by one more wmcaFree, made by the destructor after FreeLibrary
    has unloaded the library. *)
Theorem C2_success_path_calls :
  outcome env_ok lines_ok = Returned 0 /\
  natives (trace env_ok lines_ok)
    = [N_LoadLibraryA "wmca.dll";
       N_GetProcAddress "wmcaLoad"; N_GetProcAddress "wmcaFree";
       N_GetProcAddress "wmcaSetServer"; N_GetProcAddress "wmcaSetPort";
       N_GetProcAddress "wmcaIsConnected"; N_GetProcAddress "wmcaConnect";
       N_GetProcAddress "wmcaDisconnect";
       N_call wmcaLoad;
       N_call (wmcaSetServer "127.0.0.1");
       N_call (wmcaSetPort 9000);
       N_call (wmcaConnect NULL 0 "0" "1" "user" "secret" "cert");
       N_call wmcaIsConnected;
       N_Sleep 5000;
       N_call wmcaDisconnect;
       N_call wmcaFree;
       N_FreeLibrary;
       N_call wmcaFree] /\
  calls_after_unload (trace env_ok lines_ok) = [wmcaFree].
Proof. vm_compute. repeat split. Qed.

(** C3 fails on the code: with wmcaDisconnect missing from the library,
    [LoadDLL] resolves the seven names, unloads the library and [main]
    returns 1, but the destructor then calls wmcaFree through the pointer
    that [LoadDLL] left in place. *)
Theorem C3_missing_entry_point_calls_wmcaFree :
  outcome env_no_wmcaDisconnect lines_ok = Returned 1 /\
  natives (trace env_no_wmcaDisconnect lines_ok)
    = [N_LoadLibraryA "wmca.dll";
       N_GetProcAddress "wmcaLoad"; N_GetProcAddress "wmcaFree";
       N_GetProcAddress "wmcaSetServer"; N_GetProcAddress "wmcaSetPort";
       N_GetProcAddress "wmcaIsConnected"; N_GetProcAddress "wmcaConnect";
       N_GetProcAddress "wmcaDisconnect";
       N_FreeLibrary;
       N_call wmcaFree] /\
  vendor_calls (trace env_no_wmcaDisconnect lines_ok) = [wmcaFree].
Proof. vm_compute. repeat split. Qed.



(** C5: in every run the handle discipline holds from start to exit: a
    library that was loaded is unloaded with FreeLibrary on its own handle,
    nothing is unloaded twice or without having been loaded, and nothing is
    still held when the run ends; FreeLibrary is called once in a run whose
    LoadLibraryA succeeded and never otherwise. *)
Theorem C5_library_released_exactly_once (env : Env) (lines : list string) :
  handle_monitor None (trace env lines) = Some None /\
  unload_count (trace env lines)
    = (if existsb (fun l => negb (snd l =? NULL)) (library_loads (trace env lines))
       then 1%nat else 0%nat).
Proof.
  by_wp env lines.
  wp_inputs lines; [split; reflexivity | | split; reflexivity].
  wp_exec; rewrite ?Z.eqb_refl; split; reflexivity.
Qed.

(** C6, as the specification states it, fails: with a port text that is
    not a number the program has prompted for two fields, not five, when it
    ends. *)
Lemma C6_bad_port_two_prompts :
  prompted (strict_trace env_ok lines_bad_port)
    = [("서버 주소", Some "127.0.0.1"); ("포트 번호", Some "9000")] /\
  verdict env_ok lines_bad_port = Finished (Uncaught Stoi.invalid_argument).
Proof. vm_compute. split; reflexivity. Qed.

(** C6, amended: [GetInput] reads one line and returns the default value
    when a default exists and the line is empty, and the line itself
    otherwise; in a run whose port text converts, [main] prompts for the
    five fields in order, the first two with the defaults "127.0.0.1" and
    "9000". *)
Theorem C6_GetInput_defaults_five_prompts (env : Env) (lines : list string)
  (port : Z) :
  Stoi.stoi (portStr_of lines) = Stoi.Ok port ->
  (forall szPrompt szDefault w,
      run env (GetInput szPrompt (Some szDefault)) w
      = (if empty (hd EmptyString (stdin w)) then szDefault
         else hd EmptyString (stdin w),
         {| stdin := tl (stdin w);
            history := history w
                       ++ [EvOut (OutPrintf "%s" [ArgS szPrompt]);
                           EvOut (OutPrintf " (기본값: %s): " [ArgS szDefault]);
                           EvLine (hd EmptyString (stdin w))] |})) /\
  (forall szPrompt w,
      run env (GetInput szPrompt None) w
      = (hd EmptyString (stdin w),
         {| stdin := tl (stdin w);
            history := history w
                       ++ [EvOut (OutPrintf "%s" [ArgS szPrompt]);
                           EvOut (OutPrintf ": " []);
                           EvLine (hd EmptyString (stdin w))] |})) /\
  prompted (strict_trace env lines) = fields.
Proof.
  intros Hport. split; [| split].
  - intros szPrompt szDefault w. unfold GetInput. simpl.
    rewrite <- !app_assoc. simpl.
    destruct (empty (hd EmptyString (stdin w))); reflexivity.
  - intros szPrompt w. unfold GetInput. simpl.
    rewrite <- !app_assoc. reflexivity.
  - by_wp_strict env lines.
    wp_inputs lines; [reflexivity | | discriminate].
    wp_exec; reflexivity.
Qed.

Lemma C6_GetInput_defaults_five_prompts_witness :
  Stoi.stoi (portStr_of lines_ok) = Stoi.Ok 9000 /\
  prompted (strict_trace env_ok lines_ok) = fields.
Proof.
  split; [reflexivity |].
  exact (proj2 (proj2 (C6_GetInput_defaults_five_prompts env_ok lines_ok 9000
                         eq_refl))).
Defined.

(** X16: a run sleeps exactly when its inputs were accepted and neither
    the library load, nor a resolution, nor wmcaLoad, wmcaSetServer,
    wmcaSetPort or wmcaConnect failed; it then sleeps once, for 5000 ms,
    directly between the wmcaIsConnected call and the wmcaDisconnect
    call. *)
Theorem X16_single_fixed_sleep (env : Env) (lines : list string) :
  sleeps (strict_trace env lines)
  = if inputs_accepted lines
       && negb (existsb decisive_failure (strict_trace env lines))
    then [(Some (N_call wmcaIsConnected), 5000, Some (N_call wmcaDisconnect))]
    else [].
Proof.
  unfold inputs_accepted. by_wp_strict env lines.
  wp_inputs lines; [reflexivity | | reflexivity].
  wp_exec; reflexivity.
Qed.

(** C9: with "abc" typed as the port, [stoi] throws std::invalid_argument,
    nobody catches it, and the run ends right after that line was read:
    the program prints nothing further and returns no exit code. *)
Theorem C9_bad_port_uncaught (env : Env) :
  empty (nth 1 lines_bad_port EmptyString) = false /\
  Stoi.stoi (portStr_of lines_bad_port) = Stoi.Throws Stoi.invalid_argument /\
  outcome env lines_bad_port = Uncaught Stoi.invalid_argument /\
  trace env lines_bad_port
    = [EvOut (OutSetlocaleAll "");
       EvOut (OutPrintf "============================================================\n" []);
       EvOut (OutPrintf "NH증권 WMCA API 로그인 예제\n" []);
       EvOut (OutPrintf "============================================================\n" []);
       EvOut (OutPrintf "\n다음 정보를 입력하세요:\n" []);
       EvOut (OutPrintf "%s" [ArgS "서버 주소"]);
       EvOut (OutPrintf " (기본값: %s): " [ArgS "127.0.0.1"]);
       EvLine "";
       EvOut (OutPrintf "%s" [ArgS "포트 번호"]);
       EvOut (OutPrintf " (기본값: %s): " [ArgS "9000"]);
       EvLine "abc"].
Proof. repeat split. Qed.

(** ** Properties of the methods of [WMCAClient] *)

(** [LoadDLL] when LoadLibraryA answers NULL: four lines are printed, no
    pointer is touched and the result is false. *)
Lemma LoadDLL_library_absent (env : Env) (this : WMCAClient)
  (szDLLPath : string) (w : World) :
  env (history w) (QLoadLibraryA szDLLPath) = NULL ->
  run env (LoadDLL this szDLLPath) w
  = ((false, set_hDll this NULL),
     {| stdin := stdin w;
        history :=
          history w
          ++ [EvAns (QLoadLibraryA szDLLPath) NULL;
              EvOut (OutPrintf "✗ %s 로드 실패\n" [ArgS szDLLPath]);
              EvOut (OutPrintf "  DLL이 다음 경로에 있는지 확인하세요:\n" []);
              EvOut (OutPrintf "  - C:\\Windows\\System32\\\n" []);
              EvOut (OutPrintf "  - 프로그램과 같은 디렉토리\n" [])] |}).
Proof.
  intros H. destruct this. unfold LoadDLL. cbn. rewrite H. cbn.
  unfold record. cbn. now rewrite <- !app_assoc.
Qed.

(** [Cleanup] unloads the library if one is held and always leaves the
    handle null, so a second [Cleanup] unloads nothing. *)
Lemma Cleanup_nulls_handle (this : WMCAClient) (lines : list string) :
  wp (Cleanup this) lines
    (fun this' _ evs =>
       m_hDll this' = NULL /\
       unload_count evs = if m_hDll this =? NULL then 0%nat else 1%nat).
Proof.
  destruct this as [h pl pf pss psp pic pc pd b], b; wp_exec; split; reflexivity.
Qed.

(** A [LoadDLL] that returns true leaves the seven pointers non-null. *)
Lemma LoadDLL_true_resolved (this : WMCAClient) (szDLLPath : string)
  (lines : list string) :
  wp (LoadDLL this szDLLPath) lines
    (fun r _ _ => fst r = true -> forall wr, null_branch wr (snd r) = false).
Proof.
  destruct this. wp_exec; intros H; try discriminate H;
    intros []; cbn; assumption.
Qed.

(** No method other than [LoadDLL] writes a function pointer. *)
Lemma invoke_keeps_pointers (m : Method) (this : WMCAClient)
  (lines : list string) :
  wp (invoke m this) lines (fun this' _ _ => forall wr, slot wr this' = slot wr this).
Proof.
  destruct this as [h pl pf pss psp pic pc pd b], m, b; unfold invoke;
    wp_exec; intros []; reflexivity.
Qed.

(** With the seven pointers non-null, every method gets through to the
    vendor library. *)
Lemma invoke_reaches_vendor (m : Method) (this : WMCAClient)
  (lines : list string) :
  (forall wr, null_branch wr this = false) ->
  wp (invoke m this) lines (fun _ _ evs => vendor_calls evs <> []).
Proof.
  intros H.
  pose proof (H W_Load) as E1. pose proof (H W_SetServer) as E2.
  pose proof (H W_SetPort) as E3. pose proof (H W_IsConnected) as E4.
  pose proof (H W_Connect) as E5. pose proof (H W_Disconnect) as E6.
  pose proof (H W_Free) as E7. clear H.
  destruct this as [h pl pf pss psp pic pc pd b]. cbn in *.
  destruct m, b; unfold invoke; wp_exec; discriminate.
Qed.

Lemma invoke_all_keeps_pointers (env : Env) (ms : list Method) :
  forall (this : WMCAClient) (w : World) (wr : Wrapper),
    slot wr (fst (run env (invoke_all ms this) w)) = slot wr this.
Proof.
  induction ms as [| m ms IH]; intros this w wr; simpl; [reflexivity |].
  rewrite run_bind, IH.
  exact (wp_emitted env (invoke m this) w _ (invoke_keeps_pointers m this _) wr).
Qed.

(** C8: after a [LoadDLL] that returned true, and after any further
    sequence of calls to the wrappers and to [Cleanup], the seven pointers
    are what [LoadDLL] made them, the test that opens each wrapper is false,
    and whatever method is called next reaches the vendor library. *)
Theorem C8_null_branches_unreachable (env : Env) (this : WMCAClient)
  (szDLLPath : string) (w : World) (ms : list Method) :
  fst (fst (run env (LoadDLL this szDLLPath) w)) = true ->
  let this1 := snd (fst (run env (LoadDLL this szDLLPath) w)) in
  let w1 := snd (run env (LoadDLL this szDLLPath) w) in
  let this2 := fst (run env (invoke_all ms this1) w1) in
  let w2 := snd (run env (invoke_all ms this1) w1) in
  (forall wr, slot wr this2 = slot wr this1 /\ null_branch wr this2 = false) /\
  (forall m, vendor_calls (emitted env (invoke m this2) w2) <> []).
Proof.
  intros Hok this1 w1 this2 w2.
  pose proof (wp_emitted env _ w _ (LoadDLL_true_resolved this szDLLPath _) Hok)
    as H1. fold this1 in H1.
  assert (H2 : forall wr, slot wr this2 = slot wr this1 /\ null_branch wr this2 = false).
  { intros wr. unfold this2.
    split; [apply invoke_all_keeps_pointers |].
    unfold null_branch. rewrite invoke_all_keeps_pointers. apply H1. }
  split; [exact H2 |].
  intros m.
  apply (wp_emitted env (invoke m this2) w2
           (fun _ _ evs => vendor_calls evs <> [])).
  apply invoke_reaches_vendor. intros wr. apply H2.
Qed.

Lemma C8_null_branches_unreachable_witness :
  fst (fst (run env_ok (LoadDLL WMCAClient_ctor "wmca.dll") (start []))) = true /\
  null_branch W_Free
    (fst (run env_ok
            (invoke_all [M_Load; M_Cleanup; M_Free]
               (snd (fst (run env_ok (LoadDLL WMCAClient_ctor "wmca.dll") (start [])))))
            (snd (run env_ok (LoadDLL WMCAClient_ctor "wmca.dll") (start [])))))
    = false.
Proof.
  split; [reflexivity |].
  exact (proj2 (proj1 (C8_null_branches_unreachable env_ok WMCAClient_ctor
                         "wmca.dll" (start []) [M_Load; M_Cleanup; M_Free]
                         eq_refl) W_Free)).
Defined.

Lemma LoadDLL_keeps_flag (this : WMCAClient) (szDLLPath : string)
  (lines : list string) :
  wp (LoadDLL this szDLLPath) lines
    (fun r _ _ => m_bConnected (snd r) = m_bConnected this).
Proof. destruct this. wp_exec; reflexivity. Qed.

Lemma invoke_flag (m : Method) (this : WMCAClient) (lines : list string) :
  wp (invoke m this) lines
    (fun this' _ evs =>
       m_bConnected this'
       = match m with
         | M_Connect _ _ _ _ _ =>
             m_bConnected this || existsb connect_succeeded evs
         | M_Disconnect | M_Cleanup =>
             m_bConnected this && negb (existsb disconnect_succeeded evs)
         | _ => m_bConnected this
         end).
Proof.
  destruct this as [h pl pf pss psp pic pc pd b], m, b; unfold invoke;
    wp_exec; unfold truthy; rewrite ?E, ?E0, ?E1; reflexivity.
Qed.

Lemma Cleanup_enters_Disconnect (this : WMCAClient) (lines : list string) :
  wp (Cleanup this) lines
    (fun _ _ evs => existsb disconnect_entered evs = m_bConnected this).
Proof.
  destruct this as [h pl pf pss psp pic pc pd b], b; wp_exec; reflexivity.
Qed.

(** C10: the flag is false in a new client; [LoadDLL], [Load],
    [SetServer], [SetPort], [IsConnected] and [Free] leave it alone;
    [Connect] sets it when its vendor call succeeded and leaves it alone
    otherwise; [Disconnect], called directly or by [Cleanup], clears it when
    its vendor call succeeded and leaves it alone otherwise; and [Cleanup]
    enters [Disconnect] exactly when the flag is set. *)
Theorem C10_connection_flag (env : Env) :
  m_bConnected WMCAClient_ctor = false /\
  (forall this szDLLPath w,
      m_bConnected (snd (fst (run env (LoadDLL this szDLLPath) w)))
      = m_bConnected this) /\
  (forall m this w,
      m_bConnected (fst (run env (invoke m this) w))
      = match m with
        | M_Connect _ _ _ _ _ =>
            m_bConnected this
            || existsb connect_succeeded (emitted env (invoke m this) w)
        | M_Disconnect | M_Cleanup =>
            m_bConnected this
            && negb (existsb disconnect_succeeded (emitted env (invoke m this) w))
        | _ => m_bConnected this
        end) /\
  (forall this w,
      existsb disconnect_entered (emitted env (Cleanup this) w)
      = m_bConnected this).
Proof.
  split; [reflexivity |]. split; [| split].
  - intros this szDLLPath w.
    exact (wp_emitted env _ w _ (LoadDLL_keeps_flag this szDLLPath _)).
  - intros m this w.
    exact (wp_emitted env _ w _ (invoke_flag m this _)).
  - intros this w.
    exact (wp_emitted env _ w _ (Cleanup_enters_Disconnect this _)).
Qed.

(** ** Further properties of whole runs *)

Lemma resolved_before_sound (tr : list Event) :
  forall seen : list (string * Z),
    resolved_before seen tr = true ->
    forall pre fn c r post,
      tr = pre ++ EvAns (QCall fn c) r :: post ->
      fn <> NULL /\
      (In (entry_name c, fn) seen \/
       exists h, In (EvAns (QGetProcAddress h (entry_name c)) fn) pre).
Proof.
  induction tr as [| e tr IH]; intros seen Hchk pre fn c r post Heq.
  - destruct pre; discriminate Heq.
  - destruct pre as [| e' pre].
    + injection Heq as -> ->. cbn in Hchk.
      apply andb_prop in Hchk as [Hchk _].
      apply andb_prop in Hchk as [Hnz Hex].
      split.
      * intros ->. discriminate Hnz.
      * left. apply existsb_exists in Hex as ([name p] & Hin & Hnp).
        cbn in Hnp. apply andb_prop in Hnp as [Hn Hp].
        apply String.eqb_eq in Hn. apply Z.eqb_eq in Hp. now subst.
    + injection Heq as <- ->.
      assert (Hstep : exists seen',
                 resolved_before seen' (pre ++ EvAns (QCall fn c) r :: post) = true /\
                 forall np, In np seen' ->
                   In np seen \/
                   exists h, e = EvAns (QGetProcAddress h (fst np)) (snd np)).
      { destruct e as [o | q a | l]; cbn in Hchk.
        - exists seen. split; [destruct o; exact Hchk | auto].
        - destruct q as [path | h name | fn' c'].
          + exists seen. split; [exact Hchk | auto].
          + exists ((name, a) :: seen). split; [exact Hchk |].
            intros np [<- | Hin]; [right; now exists h | now left].
          + exists seen. apply andb_prop in Hchk as [_ Hchk]. split; auto.
        - exists seen. split; [exact Hchk | auto]. }
      destruct Hstep as (seen' & Hchk' & Hseen').
      destruct (IH seen' Hchk' pre fn c r post eq_refl) as (Hnz & [Hin | (h & Hin)]).
      * split; [exact Hnz |].
        destruct (Hseen' _ Hin) as [Hs | (h & ->)]; [now left |].
        right. exists h. now left.
      * split; [exact Hnz |]. right. exists h. now right.
Qed.

Lemma trace_resolved_before (env : Env) (lines : list string) :
  resolved_before [] (trace env lines) = true.
Proof.
  by_wp env lines.
  wp_inputs lines; [reflexivity | | reflexivity].
  wp_exec; rewrite ?Z.eqb_refl; reflexivity.
Qed.

(** X1: every call through a function pointer in a run uses a non-null
    address, and that address is one that GetProcAddress answered earlier in
    the same run for the export the call goes to. *)
Theorem X1_calls_through_resolved_pointers (env : Env) (lines : list string)
  (pre post : list Event) (fn r : Z) (c : VendorCall) :
  trace env lines = pre ++ EvAns (QCall fn c) r :: post ->
  fn <> NULL /\
  exists h, In (EvAns (QGetProcAddress h (entry_name c)) fn) pre.
Proof.
  intros H.
  destruct (resolved_before_sound _ [] (trace_resolved_before env lines)
              pre fn c r post H) as (Hnz & [[] | Hex]).
  split; assumption.
Qed.

Lemma X1_calls_through_resolved_pointers_witness :
  trace env_ok lines_ok
    = firstn 30 (trace env_ok lines_ok)
      ++ EvAns (QCall 4198400 wmcaLoad) 1 :: skipn 31 (trace env_ok lines_ok) /\
  4198400 <> NULL /\
  exists h, In (EvAns (QGetProcAddress h "wmcaLoad") 4198400)
              (firstn 30 (trace env_ok lines_ok)).
Proof.
  assert (H : trace env_ok lines_ok
              = firstn 30 (trace env_ok lines_ok)
                ++ EvAns (QCall 4198400 wmcaLoad) 1 :: skipn 31 (trace env_ok lines_ok))
    by reflexivity.
  split; [exact H |].
  exact (X1_calls_through_resolved_pointers env_ok lines_ok _ _ _ _ _ H).
Defined.

(** X2: whatever the environment does, the vendor only ever sees the
    values typed: wmcaSetServer gets the server text, wmcaSetPort the
    converted port, and wmcaConnect a null window, message 0, media type
    '0', user type '1' and the three credentials, each as a C string. *)
Theorem X2_vendor_call_arguments (env : Env) (lines : list string) :
  Forall (expected_call lines) (vendor_calls (trace env lines)).
Proof.
  by_wp env lines.
  wp_inputs lines; [constructor | | constructor].
  wp_exec; repeat constructor; exact Eport.
Qed.

(** X3: the inputs are checked before anything native happens: when the
    port converts and no required field is empty, the first native call is
    LoadLibraryA on wmca.dll; otherwise the run makes no native call. *)
Theorem X3_inputs_checked_first (env : Env) (lines : list string) :
  hd_error (natives (trace env lines))
    = if inputs_accepted lines then Some (N_LoadLibraryA "wmca.dll") else None.
Proof.
  unfold inputs_accepted. by_wp env lines.
  wp_inputs lines; [reflexivity | | reflexivity].
  wp_exec; reflexivity.
Qed.

(** X4: in every run whose port text converts, the native calls made
    while the library can still be called are the first steps of the fixed
    forward sequence (load, the seven resolutions, wmcaLoad, wmcaSetServer,
    wmcaSetPort, wmcaConnect, wmcaIsConnected, Sleep, wmcaDisconnect),
    exactly as many as lead up to the first step that failed and all of
    them when none failed, followed only by release calls: wmcaFree and
    FreeLibrary, and further wmcaDisconnect calls only after the whole
    sequence. *)
Theorem X4_calls_follow_protocol (env : Env) (lines : list string) (port : Z) :
  Stoi.stoi (portStr_of lines) = Stoi.Ok port ->
  exists releases : list Native,
    natives (strict_trace env lines)
    = firstn (progress lines (strict_trace env lines)) (protocol lines port)
      ++ releases /\
    forallb (release_after (progress lines (strict_trace env lines))) releases
    = true.
Proof.
  intros Hport. unfold progress, inputs_accepted. by_wp_strict env lines.
  wp_inputs lines; [eexists; split; reflexivity | | discriminate].
  injection Hport as <-.
  wp_exec; eexists; split; reflexivity.
Qed.

Lemma X4_calls_follow_protocol_witness :
  Stoi.stoi (portStr_of lines_ok) = Stoi.Ok 9000 /\
  exists releases : list Native,
    natives (strict_trace env_ok lines_ok)
    = firstn (progress lines_ok (strict_trace env_ok lines_ok))
        (protocol lines_ok 9000)
      ++ releases /\
    forallb (release_after (progress lines_ok (strict_trace env_ok lines_ok)))
      releases
    = true.
Proof.
  split; [reflexivity |].
  exact (X4_calls_follow_protocol env_ok lines_ok 9000 eq_refl).
Defined.

(** X5: counting only calls made while the library is loaded, wmcaLoad is
    called at most once; wmcaFree is not called in a run that never reached
    wmcaLoad, is called once when wmcaLoad returned FALSE or when
    wmcaConnect returned TRUE, and is called twice, by [main] and again by
    the destructor, when wmcaLoad returned TRUE and wmcaSetServer,
    wmcaSetPort or wmcaConnect then failed. *)
Theorem X5_module_release_while_loaded (env : Env) (lines : list string) :
  match answers_to is_wmcaLoad (strict_trace env lines) with
  | [] => answers_to is_wmcaFree (strict_trace env lines) = []
  | [r] =>
      List.length (answers_to is_wmcaFree (strict_trace env lines))
      = if r =? 0 then 1%nat
        else if existsb connect_succeeded (strict_trace env lines) then 1%nat
        else 2%nat
  | _ => False
  end /\
  first_stale false (strict_trace env lines) = None.
Proof.
  by_wp_strict env lines.
  wp_inputs lines; [split; reflexivity | | split; reflexivity].
  wp_exec; split; reflexivity.
Qed.

(** X6: wmcaDisconnect is called only in runs whose wmcaConnect returned
    TRUE; there it is called until it returns TRUE, three times at most
    (by [main], by [Cleanup] and by the destructor), and never again after
    a TRUE. *)
Theorem X6_logout_attempts (env : Env) (lines : list string) :
  List.length (answers_to is_wmcaDisconnect (trace env lines))
    = if existsb connect_succeeded (trace env lines)
      then Nat.min 3 (S (leading_failures
                           (answers_to is_wmcaDisconnect (trace env lines))))
      else 0%nat.
Proof.
  by_wp env lines.
  wp_inputs lines; [reflexivity | | reflexivity].
  wp_exec; reflexivity.
Qed.


(** X7: when [main] returns 1 and no entry point was missing, nothing is
    called through a function pointer after FreeLibrary: either the run
    never unloads anything, or FreeLibrary is its last native call. *)
Theorem X7_failure_paths_stop_at_unload (env : Env) (lines : list string) :
  outcome env lines = Returned 1 ->
  existsb entry_point_missing (trace env lines) = false ->
  calls_after_unload (trace env lines) = [] /\
  (unload_count (trace env lines) = 0%nat \/
   last (natives (trace env lines)) (N_Sleep 0) = N_FreeLibrary).
Proof.
  by_wp env lines.
  wp_inputs lines; [cbn; auto | | discriminate].
  wp_exec; intros H1; try discriminate H1; intros H2; try discriminate H2;
    cbn; auto.
Qed.


Lemma X7_failure_paths_stop_at_unload_witness :
  outcome env_wmcaLoad_fails lines_ok = Returned 1 /\
  existsb entry_point_missing (trace env_wmcaLoad_fails lines_ok) = false /\
  calls_after_unload (trace env_wmcaLoad_fails lines_ok) = [].
Proof.
  split; [reflexivity |]. split; [reflexivity |].
  exact (proj1 (X7_failure_paths_stop_at_unload env_wmcaLoad_fails lines_ok
                  eq_refl eq_refl)).
Defined.

(** X11: a run that returns 1 has printed at least one error line. *)
Theorem X11_exit_1_prints_error (env : Env) (lines : list string) :
  outcome env lines = Returned 1 ->
  existsb error_line (trace env lines) = true.
Proof.
  by_wp env lines.
  wp_inputs lines; [cbn; reflexivity | | discriminate].
  wp_exec; intros H; try discriminate H; reflexivity.
Qed.

Lemma X11_exit_1_prints_error_witness :
  outcome env_absent lines_ok = Returned 1 /\
  existsb error_line (trace env_absent lines_ok) = true.
Proof.
  split; [reflexivity |].
  exact (X11_exit_1_prints_error env_absent lines_ok eq_refl).
Defined.

(** X12: the only strings a run hands to printf are the prompts, the two
    default values, the library path, the server and the user ID; the
    password and the certificate password are not among them (they reach
    printf only if they equal one of those strings). *)
Theorem X12_secrets_not_printed (env : Env) (lines : list string) :
  incl (printed_strings (trace env lines)) (printable lines).
Proof.
  by_wp env lines. unfold printable.
  wp_inputs lines.
  - intros s H. cbn in H. cbn. repeat destruct H as [<- | H]; try in_list. destruct H.
  - wp_exec; intros s H; cbn in H; repeat destruct H as [<- | H];
      try in_list; destruct H.
  - intros s H. cbn in H. cbn. repeat destruct H as [<- | H]; try in_list. destruct H.
Qed.

(** X13: a run calls GetProcAddress either not at all or for the seven
    entry points in the order of lines 78-84, always on the handle that
    LoadLibraryA returned, and only when that handle is not null. *)
Theorem X13_resolution_on_loaded_handle (env : Env) (lines : list string) :
  proc_queries (trace env lines)
    = match library_loads (trace env lines) with
      | [(_, h)] => if h =? NULL then [] else map (pair h) entry_points
      | _ => []
      end.
Proof.
  by_wp env lines.
  wp_inputs lines; [reflexivity | | reflexivity].
  wp_exec; reflexivity.
Qed.

Lemma short_input_missing (lines : list string) :
  (List.length lines < 5)%nat -> required_missing lines = true.
Proof.
  intros H. unfold required_missing, certPassword_of.
  rewrite (nth_overflow lines EmptyString) by lia.
  cbn. now rewrite !orb_true_r.
Qed.

(** X15: when the input ends before the fifth line, the run makes no
    native call: it returns 1, or ends in the port conversion. *)
Theorem X15_short_input_never_reaches_library (env : Env) (lines : list string) :
  (List.length lines < 5)%nat ->
  natives (trace env lines) = [] /\
  outcome env lines
    = match Stoi.stoi (portStr_of lines) with
      | Stoi.Ok _ => Returned 1
      | Stoi.Throws e => Uncaught e
      end.
Proof.
  intros H. apply short_input_missing in H. by_wp env lines.
  wp_inputs lines; [split; reflexivity | congruence | split; reflexivity].
Qed.

Lemma X15_short_input_never_reaches_library_witness :
  (List.length [""; ""; "user"] < 5)%nat /\
  natives (trace env_ok [""; ""; "user"]) = [] /\
  outcome env_ok [""; ""; "user"] = Returned 1.
Proof.
  assert (H : (List.length [""; ""; "user"] < 5)%nat) by (cbn; lia).
  split; [exact H |].
  exact (X15_short_input_never_reaches_library env_ok [""; ""; "user"] H).
Defined.

(** ** Further properties of the methods *)

Lemma natives_app (tr1 tr2 : list Event) :
  natives (tr1 ++ tr2) = natives tr1 ++ natives tr2.
Proof.
  induction tr1 as [| e tr1 IH]; [reflexivity |].
  destruct e as [[] | [] |]; cbn; rewrite IH; reflexivity.
Qed.

Lemma unload_count_app (tr1 tr2 : list Event) :
  unload_count (tr1 ++ tr2) = (unload_count tr1 + unload_count tr2)%nat.
Proof.
  induction tr1 as [| e tr1 IH]; [reflexivity |].
  destruct e as [[] | |]; cbn; rewrite IH; reflexivity.
Qed.

Lemma invoke_unloaded (m : Method) (lines : list string) :
  wp (invoke m WMCAClient_ctor) lines
    (fun this' _ evs => this' = WMCAClient_ctor /\ natives evs = []).
Proof. destruct m; unfold invoke; wp_exec; split; reflexivity. Qed.

Lemma invoke_all_unloaded (ms : list Method) :
  forall lines,
    wp (invoke_all ms WMCAClient_ctor) lines
      (fun this' _ evs => this' = WMCAClient_ctor /\ natives evs = []).
Proof.
  induction ms as [| m ms IH]; intros lines; cbn [invoke_all].
  - split; reflexivity.
  - apply wp_bind. eapply wp_mono; [| apply invoke_unloaded].
    intros this1 rest evs [-> Hn]. cbn beta.
    eapply wp_mono; [| apply IH].
    intros this2 rest' evs' [-> Hn']. split; [reflexivity |].
    now rewrite natives_app, Hn, Hn'.
Qed.

(** X8: on a client as the constructor leaves it, any sequence of calls to
    the wrappers and to [Cleanup] makes no native call and leaves the
    client unchanged. *)
Theorem X8_unloaded_client_is_inert (env : Env) (ms : list Method) (w : World) :
  fst (run env (invoke_all ms WMCAClient_ctor) w) = WMCAClient_ctor /\
  natives (emitted env (invoke_all ms WMCAClient_ctor) w) = [].
Proof.
  exact (wp_emitted env _ w _ (invoke_all_unloaded ms _)).
Qed.

Lemma LoadDLL_handle (this : WMCAClient) (szDLLPath : string)
  (lines : list string) :
  wp (LoadDLL this szDLLPath) lines
    (fun r _ evs =>
       fst r = negb (m_hDll (snd r) =? NULL) /\
       handle_monitor None evs
       = Some (if fst r then Some (m_hDll (snd r)) else None)).
Proof.
  destruct this. wp_exec; rewrite ?Z.eqb_refl, ?E; split; reflexivity.
Qed.

(** X9: [LoadDLL] returns true exactly when it leaves a non-null handle in
    the client; when it returns false, a library it had loaded has been
    unloaded again, and when it returns true, the library of the stored
    handle is held. *)
Theorem X9_LoadDLL_handle (env : Env) (this : WMCAClient)
  (szDLLPath : string) (w : World) :
  fst (fst (run env (LoadDLL this szDLLPath) w))
    = negb (m_hDll (snd (fst (run env (LoadDLL this szDLLPath) w))) =? NULL) /\
  handle_monitor None (emitted env (LoadDLL this szDLLPath) w)
    = Some (if fst (fst (run env (LoadDLL this szDLLPath) w))
            then Some (m_hDll (snd (fst (run env (LoadDLL this szDLLPath) w))))
            else None).
Proof.
  exact (wp_emitted env _ w _ (LoadDLL_handle this szDLLPath _)).
Qed.

Lemma invoke_unload (m : Method) (this : WMCAClient) (lines : list string) :
  wp (invoke m this) lines
    (fun this' _ evs =>
       m_hDll this' = (if has_Cleanup [m] then NULL else m_hDll this) /\
       unload_count evs
       = if has_Cleanup [m] && negb (m_hDll this =? NULL) then 1%nat else 0%nat).
Proof.
  destruct this as [h pl pf pss psp pic pc pd b], m, b; unfold invoke;
    wp_exec; split; reflexivity.
Qed.

Lemma invoke_all_unload (ms : list Method) :
  forall this lines,
    wp (invoke_all ms this) lines
      (fun this' _ evs =>
         m_hDll this' = (if has_Cleanup ms then NULL else m_hDll this) /\
         unload_count evs
         = if has_Cleanup ms && negb (m_hDll this =? NULL) then 1%nat else 0%nat).
Proof.
  induction ms as [| m ms IH]; intros this lines; cbn [invoke_all].
  - split; reflexivity.
  - apply wp_bind. eapply wp_mono; [| apply invoke_unload].
    intros this1 rest evs [Hh Hc]. cbn beta.
    eapply wp_mono; [| apply IH].
    intros this2 rest' evs' [Hh' Hc'].
    rewrite unload_count_app, Hc, Hc', Hh', Hh.
    unfold has_Cleanup. cbn [existsb]. rewrite orb_false_r.
    destruct m, (existsb _ ms), (m_hDll this =? NULL); split; reflexivity.
Qed.

(** X10: over any sequence of calls to the wrappers and to [Cleanup],
    FreeLibrary is called once if the client holds a handle and the
    sequence contains a [Cleanup], and not at all otherwise; the handle is
    null after a [Cleanup] and untouched without one. *)
Theorem X10_unload_at_most_once (env : Env) (ms : list Method)
  (this : WMCAClient) (w : World) :
  m_hDll (fst (run env (invoke_all ms this) w))
    = (if has_Cleanup ms then NULL else m_hDll this) /\
  unload_count (emitted env (invoke_all ms this) w)
    = if has_Cleanup ms && negb (m_hDll this =? NULL) then 1%nat else 0%nat.
Proof.
  exact (wp_emitted env _ w _ (invoke_all_unload ms this _)).
Qed.

Lemma Cleanup_natives (this : WMCAClient) (lines : list string) :
  wp (Cleanup this) lines
    (fun _ _ evs =>
       natives evs
       = (if m_bConnected this && negb (m_pDisconnect this =? NULL)
          then [N_call wmcaDisconnect] else [])
         ++ (if m_pFree this =? NULL then [] else [N_call wmcaFree])
         ++ (if m_hDll this =? NULL then [] else [N_FreeLibrary])).
Proof.
  destruct this as [h pl pf pss psp pic pc pd b], b; wp_exec; reflexivity.
Qed.

(** X14: the native calls of [Cleanup] depend on the state of the client
    only, not on what the vendor answers: wmcaDisconnect if the client is
    connected, then wmcaFree, then FreeLibrary if a handle is held (each
    vendor call only if its pointer is non-null). *)
Theorem X14_Cleanup_calls (env : Env) (this : WMCAClient) (w : World) :
  natives (emitted env (Cleanup this) w)
    = (if m_bConnected this && negb (m_pDisconnect this =? NULL)
       then [N_call wmcaDisconnect] else [])
      ++ (if m_pFree this =? NULL then [] else [N_call wmcaFree])
      ++ (if m_hDll this =? NULL then [] else [N_FreeLibrary]).
Proof.
  exact (wp_emitted env _ w _ (Cleanup_natives this _)).
Qed.
